(** * Flux-Physics: the local development server [scripts/servers/server.py]

    A shallow embedding of the request handler [FluxHTTPRequestHandler]
    (the two overrides [end_headers] and [guess_type]) and of the start-up
    routine [main], together with the parts of the Python standard library
    the overrides delegate to ([http.server], [posixpath], [mimetypes]).

    Python byte strings and text strings are both [string] (a list of 8-bit
    characters); text outside ASCII is held in its UTF-8 encoding. *)

From Stdlib Require Import Strings.String Strings.Ascii ZArith List Bool Lia.
From Stdlib Require Import Numbers.DecimalString.
Import ListNotations.
Local Open Scope string_scope.
Local Open Scope list_scope.

(** ** Python values, exceptions and string built-ins *)

Module Py.

(** The exceptions that occur in the program.  [OSError] carries [errno]
    (which Python leaves [None] when the error was built without one) and
    [strerror]; [Other] stands for any other [Exception] subclass. *)
Inductive exn : Type :=
| OSError (errno : option Z) (strerror : string)
| KeyboardInterrupt
| SystemExit (code : Z)
| ValueError (msg : string)
| TypeError (msg : string)
| AttributeError (msg : string)
| Other (name msg : string).

(** A computation that either raises or returns. *)
Definition result (A : Type) : Type := (exn + A)%type.

Definition ret {A} (a : A) : result A := inr a.
Definition raise {A} (e : exn) : result A := inl e.
Definition bind {A B} (c : result A) (k : A -> result B) : result B :=
  match c with
  | inl e => inl e
  | inr a => k a
  end.

(** The dynamically typed values that flow through [guess_type]. *)
#[local] Set Warnings "-register-all".
Inductive value : Type :=
| VNone
| VStr (s : string)
| VTuple (items : list value).

Definition CR : ascii := ascii_of_nat 13.
Definition LF : ascii := ascii_of_nat 10.
Definition CRLF : string := String CR (String LF "").

(** [str.lower] on ASCII text. *)
Definition lower_char (c : ascii) : ascii :=
  let n := nat_of_ascii c in
  if (65 <=? n)%nat && (n <=? 90)%nat then ascii_of_nat (n + 32) else c.

Fixpoint lower (s : string) : string :=
  match s with
  | "" => ""
  | String c s' => String (lower_char c) (lower s')
  end.

(** [s.endswith(suffix)]: some tail of [s] is [suffix]. *)
Fixpoint endswith (s suffix : string) : bool :=
  (s =? suffix) ||
  match s with
  | "" => false
  | String _ s' => endswith s' suffix
  end.

(** [s.rfind(c)] for a one-character needle: the highest index holding [c],
    or -1.  [rfind_from] scans left to right from index [i], remembering the
    last hit. *)
Fixpoint rfind_from (c : ascii) (s : string) (i last : Z) : Z :=
  match s with
  | "" => last
  | String a s' => rfind_from c s' (i + 1) (if Ascii.eqb a c then i else last)
  end.

Definition rfind (c : ascii) (s : string) : Z := rfind_from c s 0 (-1).

(** [s[i:]] and [s[:i]] for [0 <= i]. *)
Definition slice_from (i : nat) (s : string) : string :=
  substring i (String.length s - i) s.
Definition slice_to (i : nat) (s : string) : string := substring 0 i s.

(** [str(n)] for an integer. *)
Definition str_int (n : Z) : string := NilEmpty.string_of_int (Z.to_int n).

(** [s * n]: [n] copies of [s]. *)
Fixpoint repeat_str (s : string) (n : nat) : string :=
  match n with
  | O => ""
  | S n' => s ++ repeat_str s n'
  end.

(** [d[k]] guarded by [k in d], for a dict held as an association list. *)
Fixpoint dict_get (d : list (string * string)) (k : string) : option string :=
  match d with
  | [] => None
  | (k', v) :: d' => if k' =? k then Some v else dict_get d' k
  end.

(** The assignment [a, b = v]: [v] is iterated and must yield exactly two
    items.  A tuple yields its items, a string its characters, [None] is not
    iterable. *)
Definition unpack2 (v : value) : result (value * value) :=
  match v with
  | VTuple [a; b] => ret (a, b)
  | VTuple (_ :: _ :: _ :: _) =>
      raise (ValueError "too many values to unpack (expected 2)")
  | VTuple [a] =>
      raise (ValueError "not enough values to unpack (expected 2, got 1)")
  | VTuple [] =>
      raise (ValueError "not enough values to unpack (expected 2, got 0)")
  | VStr (String a (String b "")) => ret (VStr (String a ""), VStr (String b ""))
  | VStr (String _ (String _ (String _ _))) =>
      raise (ValueError "too many values to unpack (expected 2)")
  | VStr (String _ "") =>
      raise (ValueError "not enough values to unpack (expected 2, got 1)")
  | VStr "" =>
      raise (ValueError "not enough values to unpack (expected 2, got 0)")
  | VNone => raise (TypeError "cannot unpack non-iterable NoneType object")
  end.

End Py.

(** ** [posixpath.splitext] *)

Module posixpath.
Import Py.

(** The loop of [genericpath._splitext] that skips the leading dots of the
    file name: looking at indices [i, i+1, ..., i+n-1], is one of them not a
    dot? *)
Fixpoint has_non_dot (p : string) (i n : nat) : bool :=
  match n with
  | O => false
  | S n' =>
      match String.get i p with
      | Some c => if Ascii.eqb c "." then has_non_dot p (S i) n' else true
      | None => true
      end
  end.

(** [splitext(p)]: the extension is everything from the last dot of the last
    path component on, unless that component has only leading dots. *)
Definition splitext (p : string) : string * string :=
  let sepIndex := rfind "/" p in
  let dotIndex := rfind "." p in
  if (dotIndex >? sepIndex)%Z
     && has_non_dot p (Z.to_nat (sepIndex + 1)) (Z.to_nat (dotIndex - (sepIndex + 1)))
  then (slice_to (Z.to_nat dotIndex) p, slice_from (Z.to_nat dotIndex) p)
  else (p, "").

End posixpath.

(** ** [mimetypes.guess_type]

    The table-driven core of [MimeTypes.guess_type] for plain file-system
    paths (no URL scheme), in strict mode; the request handler calls it with
    the file-system path it has translated the request path to.  The tables
    are arguments. *)

Module mimetypes.
Import Py.

Record tables : Type := {
  suffix_map : list (string * string);
  encodings_map : list (string * string);
  types_map : list (string * string)
}.

(** [while (ext_lower := ext.lower()) in self.suffix_map: ...], with the
    number of rounds bounded by [fuel]. *)
Fixpoint expand_suffix (t : tables) (fuel : nat) (base ext : string)
  : string * string :=
  match fuel with
  | O => (base, ext)
  | S fuel' =>
      match dict_get (suffix_map t) (lower ext) with
      | Some long => let (base', ext') := posixpath.splitext (base ++ long) in
                     expand_suffix t fuel' base' ext'
      | None => (base, ext)
      end
  end.

Definition guess_type (t : tables) (url : string)
  : option string * option string :=
  let (base0, ext0) := posixpath.splitext url in
  let (base, ext) := expand_suffix t (String.length url) base0 ext0 in
  let '(encoding, ext) :=
    match dict_get (encodings_map t) ext with
    | Some enc => (Some enc, snd (posixpath.splitext base))
    | None => (None, ext)
    end in
  match dict_get (types_map t) (lower ext) with
  | Some ty => (Some ty, encoding)
  | None => (None, encoding)
  end.

(** The default suffix and encoding tables, and the entries of the default
    type table for the kinds of file a web front end is made of. *)
Definition default_tables : tables := {|
  suffix_map := [(".svgz", ".svg.gz"); (".tgz", ".tar.gz"); (".taz", ".tar.gz");
                 (".tz", ".tar.gz"); (".tbz2", ".tar.bz2"); (".txz", ".tar.xz")];
  encodings_map := [(".gz", "gzip"); (".Z", "compress"); (".bz2", "bzip2");
                    (".xz", "xz"); (".br", "br")];
  types_map := [(".js", "application/javascript");
                (".mjs", "application/javascript");
                (".json", "application/json");
                (".wasm", "application/wasm");
                (".png", "image/png");
                (".svg", "image/svg+xml");
                (".css", "text/css");
                (".html", "text/html");
                (".txt", "text/plain");
                (".tar", "application/x-tar")]
|}.

End mimetypes.

(** ** [http.server]: the parent request handler

    The state of a handler that the header methods read and write, and the
    methods of [BaseHTTPRequestHandler] and [SimpleHTTPRequestHandler] that
    [FluxHTTPRequestHandler] inherits, calls or overrides. *)

Module http_server.
Import Py.

(** [_headers_buffer] is an attribute that exists only once a header method
    has created it; [wfile] is the sequence of byte strings written to the
    client socket. *)
Record handler : Type := {
  request_version : string;
  _headers_buffer : option (list string);
  wfile : list string;
  close_connection : bool
}.

Definition set_buffer (h : handler) (b : option (list string)) : handler :=
  {| request_version := request_version h;
     _headers_buffer := b;
     wfile := wfile h;
     close_connection := close_connection h |}.

Definition set_close_connection (h : handler) (c : bool) : handler :=
  {| request_version := request_version h;
     _headers_buffer := _headers_buffer h;
     wfile := wfile h;
     close_connection := c |}.

Definition write (h : handler) (data : string) : handler :=
  {| request_version := request_version h;
     _headers_buffer := _headers_buffer h;
     wfile := wfile h ++ [data];
     close_connection := close_connection h |}.

(** ["%s: %s\r\n" % (keyword, value)] *)
Definition header_line (keyword value : string) : string :=
  keyword ++ ": " ++ value ++ CRLF.

(** [if not hasattr(self, '_headers_buffer'): self._headers_buffer = []]
    followed by [self._headers_buffer.append(line)]. *)
Definition buffer_append (h : handler) (line : string) : handler :=
  match _headers_buffer h with
  | None => set_buffer h (Some [line])
  | Some b => set_buffer h (Some (b ++ [line]))
  end.

(** [BaseHTTPRequestHandler.send_response_only], with the reason phrase
    already looked up. *)
Definition send_response_only (protocol_version : string) (code : Z)
    (message : string) (h : handler) : handler :=
  if request_version h =? "HTTP/0.9" then h
  else buffer_append h (protocol_version ++ " " ++ str_int code ++ " " ++ message ++ CRLF).

(** [BaseHTTPRequestHandler.send_header] *)
Definition send_header (keyword value : string) (h : handler) : handler :=
  let h1 := if request_version h =? "HTTP/0.9" then h
            else buffer_append h (header_line keyword value) in
  if lower keyword =? "connection" then
    if lower value =? "close" then set_close_connection h1 true
    else if lower value =? "keep-alive" then set_close_connection h1 false
    else h1
  else h1.

(** [BaseHTTPRequestHandler.flush_headers] *)
Definition flush_headers (h : handler) : handler :=
  match _headers_buffer h with
  | Some b => set_buffer (write h (String.concat "" b)) (Some [])
  | None => h
  end.

(** [BaseHTTPRequestHandler.end_headers]: appending to a buffer that was
    never created is an [AttributeError]. *)
Definition end_headers (h : handler) : result handler :=
  if request_version h =? "HTTP/0.9" then ret h
  else match _headers_buffer h with
       | Some b => ret (flush_headers (set_buffer h (Some (b ++ [CRLF]))))
       | None => raise (AttributeError "_headers_buffer")
       end.

(** [SimpleHTTPRequestHandler.extensions_map] *)
Definition extensions_map : list (string * string) :=
  [(".gz", "application/gzip"); (".Z", "application/octet-stream");
   (".bz2", "application/x-bzip2"); (".xz", "application/x-xz")].

(** [SimpleHTTPRequestHandler.guess_type]: the return value is a string of
    the form type/subtype. *)
Definition guess_type (t : mimetypes.tables) (path : string) : string :=
  let (base, ext) := posixpath.splitext path in
  match dict_get extensions_map ext with
  | Some ty => ty
  | None =>
      match dict_get extensions_map (lower ext) with
      | Some ty => ty
      | None =>
          match fst (mimetypes.guess_type t path) with
          | Some guess => if guess =? "" then "application/octet-stream" else guess
          | None => "application/octet-stream"
          end
      end
  end.

End http_server.

(** ** [FluxHTTPRequestHandler] *)

Module FluxHTTPRequestHandler.
Import Py.

(** [end_headers]: three [send_header] calls, then the parent's
    [end_headers]. *)
Definition end_headers (h : http_server.handler) : result http_server.handler :=
  let h := http_server.send_header "Access-Control-Allow-Origin" "*" h in
  let h := http_server.send_header "Access-Control-Allow-Methods" "GET, POST, OPTIONS" h in
  let h := http_server.send_header "Access-Control-Allow-Headers" "*" h in
  http_server.end_headers h.

Section GuessType.

(** The method [super().guess_type] resolves to. *)
Variable super_guess_type : string -> result value.

(** [guess_type]: the parent's answer is unpacked into two names before the
    suffix of [path] is looked at. *)
Definition guess_type (path : string) : result value :=
  bind (super_guess_type path) (fun answer =>
  bind (unpack2 answer) (fun '(mimetype, encoding) =>
  if endswith path ".js"
  then ret (VTuple [VStr "application/javascript"; encoding])
  else ret (VTuple [mimetype; encoding]))).

End GuessType.

(** The parent named in the class statement is
    [http.server.SimpleHTTPRequestHandler], whose [guess_type] returns a
    string. *)
Definition parent_guess_type (t : mimetypes.tables) (path : string)
  : result value :=
  ret (VStr (http_server.guess_type t path)).

Definition guess_type_served (t : mimetypes.tables) (path : string)
  : result value :=
  guess_type (parent_guess_type t) path.

End FluxHTTPRequestHandler.

(** ** [pathlib]: pure paths *)

Module pathlib.

(** A path is its anchor (the root, with the drive where there is one; empty
    for a relative path) and its components. *)
Record Path : Type := {
  anchor : string;
  parts : list string
}.

Definition is_absolute (p : Path) : bool := negb (anchor p =? "").

(** [p.parent]: the path without its last component; the parent of an anchor
    or of the empty path is itself. *)
Definition parent (p : Path) : Path :=
  {| anchor := anchor p; parts := removelast (parts p) |}.

(** [str(p)], in the POSIX flavour. *)
Definition str (p : Path) : string :=
  match parts p with
  | [] => if anchor p =? "" then "." else anchor p
  | _ => anchor p ++ String.concat "/" (parts p)
  end.

(** The directory that [p] names when the working directory is [cwd]
    ([..] components and links are left to the operating system). *)
Definition resolve (cwd p : Path) : Path :=
  if is_absolute p then p
  else {| anchor := anchor cwd; parts := parts cwd ++ parts p |}.

End pathlib.

(** ** The process: working directory, console and the calls to the outside *)

Module Proc.
Import Py pathlib.

(** What the process does that can be seen from outside, in order.  A
    handler created while [serve_forever] runs is given [os.getcwd()] as its
    directory, so the event records the working directory of that moment. *)
Inductive event : Type :=
| Chdir (target : Path)
| Print (line : string)
| TCPServerInit (host : string) (port : Z)
| WebbrowserOpen (url : string)
| ServeForever (directory : Path)
| ServerClose.

Record world : Type := {
  cwd : Path;
  trace : list event
}.

(** How the calls to the outside end: [None] is a normal return. *)
Record env : Type := {
  script_file : Path;                (* Path(__file__) *)
  bind_outcome : option exn;         (* TCPServer((HOST, PORT), handler) *)
  browser_outcome : exn + bool;      (* webbrowser.open(url) *)
  serve_outcome : option exn         (* httpd.serve_forever() *)
}.

Definition M (A : Type) : Type := world -> result A * world.

Definition mret {A} (a : A) : M A := fun w => (inr a, w).
Definition mraise {A} (e : exn) : M A := fun w => (inl e, w).
Definition mbind {A B} (c : M A) (k : A -> M B) : M B :=
  fun w => match c w with
           | (inl e, w') => (inl e, w')
           | (inr a, w') => k a w'
           end.

Definition log (ev : event) : M unit :=
  fun w => (inr tt, {| cwd := cwd w; trace := trace w ++ [ev] |}).

(** [try: body except ...: handler]: [handler e] is [None] when no except
    clause matches [e], which then propagates. *)
Definition try_except {A} (body : M A) (handler : exn -> option (M A)) : M A :=
  fun w => match body w with
           | (inl e, w') =>
               match handler e with
               | Some h => h w'
               | None => (inl e, w')
               end
           | (inr a, w') => (inr a, w')
           end.

Definition print (line : string) : M unit := log (Print line).

(** [os.chdir(target)]; the target is the directory the script was loaded
    from, which exists. *)
Definition os_chdir (target : Path) : M unit :=
  fun w => (inr tt, {| cwd := resolve (cwd w) target;
                       trace := trace w ++ [Chdir target] |}).

Definition sys_exit {A} (code : Z) : M A := mraise (SystemExit code).

(** [str(e)], in the form it has on POSIX systems. *)
Definition str_exn (e : exn) : string :=
  match e with
  | OSError (Some n) strerror => "[Errno " ++ str_int n ++ "] " ++ strerror
  | OSError None strerror => strerror
  | KeyboardInterrupt => ""
  | SystemExit code => str_int code
  | ValueError msg | TypeError msg | AttributeError msg | Other _ msg => msg
  end.

(** [e.errno == n] *)
Definition errno_is (e : exn) (n : Z) : bool :=
  match e with
  | OSError (Some m) _ => (m =? n)%Z
  | _ => false
  end.

Section Calls.
Variable E : env.

(** [with socketserver.TCPServer((host, port), handler) as httpd: body].
    Leaving the block closes the server and lets an exception through. *)
Definition with_TCPServer (host : string) (port : Z) (body : M unit) : M unit :=
  mbind (log (TCPServerInit host port)) (fun _ =>
  match bind_outcome E with
  | Some e => mraise e
  | None => fun w => let (r, w') := body w in
                     (r, {| cwd := cwd w'; trace := trace w' ++ [ServerClose] |})
  end).

Definition webbrowser_open (url : string) : M bool :=
  mbind (log (WebbrowserOpen url)) (fun _ =>
  match browser_outcome E with
  | inl e => mraise e
  | inr opened => mret opened
  end).

Definition serve_forever : M unit :=
  mbind (fun w => log (ServeForever (cwd w)) w) (fun _ =>
  match serve_outcome E with
  | Some e => mraise e
  | None => mret tt
  end).

End Calls.

(** How the process ends: an exit code, or an exception nobody caught, which
    the interpreter reports with a traceback. *)
Inductive status : Type :=
| Exited (code : Z)
| Traceback (e : exn).

Definition status_of (r : result unit) : status :=
  match r with
  | inr _ => Exited 0
  | inl (SystemExit code) => Exited code
  | inl e => Traceback e
  end.

(** The lines written to the console. *)
Fixpoint stdout (t : list event) : list string :=
  match t with
  | [] => []
  | Print line :: t' => line :: stdout t'
  | _ :: t' => stdout t'
  end.

End Proc.

(** ** [server.py]: configuration and [main] *)

Module server.
Import Py pathlib Proc.

Definition PORT : Z := 8000.
Definition HOST : string := "localhost".

(** [f"http://{HOST}:{PORT}"] *)
Definition base_url : string := "http://" ++ HOST ++ ":" ++ str_int PORT.

Declare Scope proc_scope.
Delimit Scope proc_scope with proc.
Notation "c ;; k" := (mbind c (fun _ => k))
  (at level 100, k at level 200, right associativity) : proc_scope.
Local Open Scope proc_scope.

Section Main.
Variable E : env.

(** The [try] block around [webbrowser.open]; its bare [except:] catches
    every exception. *)
Definition open_browser : M unit :=
  try_except
    (webbrowser_open E base_url ;;
     print "🚀 Opening FLUX in your default browser...")
    (fun _ => Some
       (print "💡 Please manually open your browser and navigate to the URL above")).

(** The body of the [with] block. *)
Definition serve : M unit :=
  print "✅ Server started successfully!" ;;
  print "" ;;
  print "📋 Instructions:" ;;
  print "1. Keep this terminal window open" ;;
  print "2. Open Chrome and go to: http://localhost:8000" ;;
  print "3. Click the 🎵 audio button and follow the setup" ;;
  print "4. Press Ctrl+C here to stop the server" ;;
  print "" ;;
  print "🌐 Available URLs:" ;;
  print ("  Main FLUX:           " ++ base_url ++ "/") ;;
  print ("  Debug Status:        " ++ base_url ++ "/debug-status.html") ;;
  print ("  WASM Test:           " ++ base_url ++ "/test-wasm-loading.html") ;;
  print ("  Fallback Physics:    " ++ base_url ++ "/test-fallback-physics.html") ;;
  print ("  PIXI Fallback:       " ++ base_url ++ "/test-pixi-fallback.html") ;;
  print ("  Chrome Launcher:     " ++ base_url ++ "/launch-in-chrome.html") ;;
  print ("  Browser Test:        " ++ base_url ++ "/test-browser-compatibility.html") ;;
  print ("  PIXI CDN Test:       " ++ base_url ++ "/test-pixi-cdn.html") ;;
  print ("  Simple Demo:         " ++ base_url ++ "/demo-two-click-simple.html") ;;
  print ("  Two-Click Test:      " ++ base_url ++ "/test-two-click-audio.html") ;;
  print "" ;;
  open_browser ;;
  print "" ;;
  print "Server is running... Press Ctrl+C to stop" ;;
  serve_forever E.

(** The two [except] clauses of the outer [try]. *)
Definition on_error (e : exn) : option (M unit) :=
  match e with
  | OSError _ _ =>
      Some ((if errno_is e 48 || errno_is e 10048 then
               print ("❌ Port " ++ str_int PORT ++ " is already in use!") ;;
               print "" ;;
               print "Solutions:" ;;
               print ("1. Stop any other server running on port " ++ str_int PORT) ;;
               print "2. Or open your browser and go to: http://localhost:8000" ;;
               print "3. Or edit this script to use a different port"
             else
               print ("❌ Server error: " ++ str_exn e)) ;;
            sys_exit 1)
  | KeyboardInterrupt =>
      Some (print (String LF "🛑 Server stopped by user") ;;
            print "Thanks for using FLUX! 🎵")
  | _ => None
  end.

Definition main : M unit :=
  let script_dir := parent (script_file E) in
  os_chdir script_dir ;;
  print "🎵 FLUX Audio Visualizer - Local Server" ;;
  print (repeat_str "=" 50) ;;
  print ("Starting server at " ++ base_url) ;;
  print ("Serving files from: " ++ pathlib.str script_dir) ;;
  print "" ;;
  try_except (with_TCPServer E HOST PORT serve) on_error.

End Main.

(** Running the script as a program, from the working directory [cwd0]. *)
Definition run (E : env) (cwd0 : Path) : status * world :=
  let (r, w) := main E {| cwd := cwd0; trace := [] |} in (status_of r, w).

End server.

(** ** Terms used in the statements about the handler *)

Module HeaderTerms.
Import Py http_server.

(** The three header lines [FluxHTTPRequestHandler.end_headers] sends. *)
Definition cors_lines : list string :=
  [header_line "Access-Control-Allow-Origin" "*";
   header_line "Access-Control-Allow-Methods" "GET, POST, OPTIONS";
   header_line "Access-Control-Allow-Headers" "*"].

(** The lines waiting in the header buffer. *)
Definition buffered (h : handler) : list string :=
  match _headers_buffer h with
  | Some b => b
  | None => []
  end.

(** The handler after one header block made of the buffered lines, the
    three CORS lines and the blank line has been written. *)
Definition finalized (h : handler) : handler :=
  {| request_version := request_version h;
     _headers_buffer := Some [];
     wfile := wfile h ++ [String.concat "" (buffered h ++ cors_lines ++ [CRLF])];
     close_connection := close_connection h |}.

(** Finalizing the headers of [h] writes one header block that ends with the
    three CORS lines and the blank line. *)
Definition cors_on_response (h : handler) : Prop :=
  exists h' earlier,
    FluxHTTPRequestHandler.end_headers h = inr h' /\
    wfile h' = wfile h ++ [String.concat "" (earlier ++ cors_lines ++ [CRLF])].

(** The ways the standard handler sets a header before the headers are
    finalized: the status line and a header field. *)
Inductive header_call : Type :=
| Status (protocol_version : string) (code : Z) (message : string)
| Header (keyword value : string).

Definition call_line (c : header_call) : string :=
  match c with
  | Status protocol_version code message =>
      protocol_version ++ " " ++ str_int code ++ " " ++ message ++ CRLF
  | Header keyword value => header_line keyword value
  end.

Definition do_call (h : handler) (c : header_call) : handler :=
  match c with
  | Status protocol_version code message =>
      send_response_only protocol_version code message h
  | Header keyword value => send_header keyword value h
  end.

Definition do_calls (cs : list header_call) (h : handler) : handler :=
  fold_left do_call cs h.

(** The part of [send_header] that fills the buffer. *)
Definition buffer_step (keyword value : string) (h : handler) : handler :=
  if request_version h =? "HTTP/0.9" then h
  else buffer_append h (header_line keyword value).

(** A request without a version token, as in the request line [GET /]. *)
Definition http09_request : handler :=
  {| request_version := "HTTP/0.9";
     _headers_buffer := None;
     wfile := [];
     close_connection := true |}.

(** A not-found answer to an HTTP/1.1 request, up to the point where the
    headers are finalized. *)
Definition not_found_response : handler :=
  do_calls [Status "HTTP/1.0" 404 "File not found";
            Header "Server" "SimpleHTTP/0.6 Python/3.11";
            Header "Connection" "close";
            Header "Content-Type" "text/html;charset=utf-8";
            Header "Content-Length" "335"]
           {| request_version := "HTTP/1.1";
              _headers_buffer := None;
              wfile := [];
              close_connection := false |}.

(** Every type in the type table has the form type/subtype, so at least
    three characters. *)
Definition types_ok (t : mimetypes.tables) : Prop :=
  Forall (fun kv => 3 <= String.length (snd kv)) (mimetypes.types_map t).

Definition unpack_error : exn :=
  ValueError "too many values to unpack (expected 2)".

End HeaderTerms.

(** ** Terms used in the statements about [main] *)

Module MainTerms.
Import Py pathlib Proc server.

(** The value of [errno.EADDRINUSE] (address already in use) on the three
    desktop platforms; on Windows it is the Winsock code WSAEADDRINUSE. *)
Inductive platform : Type := Linux | Darwin | Windows.

Definition EADDRINUSE (p : platform) : Z :=
  match p with
  | Linux => 98
  | Darwin => 48
  | Windows => 10048
  end.

Definition script_dir (E : env) : Path := parent (script_file E).

(** The lines printed before the socket is bound. *)
Definition banner (E : env) : list string :=
  ["🎵 FLUX Audio Visualizer - Local Server";
   "==================================================";
   "Starting server at http://localhost:8000";
   ("Serving files from: " ++ pathlib.str (script_dir E))%string;
   ""].

(** The lines printed once the socket is bound. *)
Definition started_lines : list string :=
  ["✅ Server started successfully!";
   "";
   "📋 Instructions:";
   "1. Keep this terminal window open";
   "2. Open Chrome and go to: http://localhost:8000";
   "3. Click the 🎵 audio button and follow the setup";
   "4. Press Ctrl+C here to stop the server";
   "";
   "🌐 Available URLs:";
   "  Main FLUX:           http://localhost:8000/";
   "  Debug Status:        http://localhost:8000/debug-status.html";
   "  WASM Test:           http://localhost:8000/test-wasm-loading.html";
   "  Fallback Physics:    http://localhost:8000/test-fallback-physics.html";
   "  PIXI Fallback:       http://localhost:8000/test-pixi-fallback.html";
   "  Chrome Launcher:     http://localhost:8000/launch-in-chrome.html";
   "  Browser Test:        http://localhost:8000/test-browser-compatibility.html";
   "  PIXI CDN Test:       http://localhost:8000/test-pixi-cdn.html";
   "  Simple Demo:         http://localhost:8000/demo-two-click-simple.html";
   "  Two-Click Test:      http://localhost:8000/test-two-click-audio.html";
   ""].

Definition opening_line : string := "🚀 Opening FLUX in your default browser...".
Definition fallback_line : string :=
  "💡 Please manually open your browser and navigate to the URL above".

Definition browser_line (o : exn + bool) : string :=
  match o with
  | inl _ => fallback_line
  | inr _ => opening_line
  end.

Definition running_line : string := "Server is running... Press Ctrl+C to stop".

(** The diagnostic that names the port and the ways out. *)
Definition port_in_use_lines : list string :=
  ["❌ Port 8000 is already in use!";
   "";
   "Solutions:";
   "1. Stop any other server running on port 8000";
   "2. Or open your browser and go to: http://localhost:8000";
   "3. Or edit this script to use a different port"].

(** The diagnostic for any other error: the error as Python prints it. *)
Definition raw_error_line (e : exn) : string :=
  ("❌ Server error: " ++ str_exn e)%string.

Definition stopped_lines : list string :=
  [String LF "🛑 Server stopped by user"; "Thanks for using FLUX! 🎵"].

(** What the outer [try] prints for an exception, and how the process ends. *)
Definition error_lines (e : exn) : list string :=
  match e with
  | OSError _ _ =>
      if errno_is e 48 || errno_is e 10048 then port_in_use_lines
      else [raw_error_line e]
  | KeyboardInterrupt => stopped_lines
  | _ => []
  end.

Definition ending (o : option exn) : status :=
  match o with
  | None => Exited 0
  | Some (OSError _ _) => Exited 1
  | Some KeyboardInterrupt => Exited 0
  | Some (SystemExit code) => Exited code
  | Some e => Traceback e
  end.

Definition outcome_lines (o : option exn) : list string :=
  match o with
  | Some e => error_lines e
  | None => []
  end.

(** The events of a run up to the call that binds the socket. *)
Definition startup (E : env) : list event :=
  Chdir (script_dir E) :: map Print (banner E) ++ [TCPServerInit HOST PORT].

(** The events after the browser line, when the socket was bound. *)
Definition serving (E : env) (cwd0 : Path) : list event :=
  [Print ""; Print running_line;
   ServeForever (resolve cwd0 (script_dir E)); ServerClose]
  ++ map Print (outcome_lines (serve_outcome E)).

(** The whole run, as a function of how the outside calls end. *)
Definition run_trace (E : env) (cwd0 : Path) : list event :=
  startup E ++
  match bind_outcome E with
  | Some e => map Print (error_lines e)
  | None =>
      map Print started_lines
      ++ [WebbrowserOpen base_url; Print (browser_line (browser_outcome E))]
      ++ serving E cwd0
  end.

Definition run_status (E : env) : status :=
  match bind_outcome E with
  | Some e => ending (Some e)
  | None => ending (serve_outcome E)
  end.

(** The same outside world with another answer from [webbrowser.open]. *)
Definition with_browser (E : env) (o : exn + bool) : env :=
  {| script_file := script_file E;
     bind_outcome := bind_outcome E;
     browser_outcome := o;
     serve_outcome := serve_outcome E |}.

(** What is left of an exception once the outer [try] has handled it. *)
Definition after_handler (e : exn) : result unit :=
  match e with
  | OSError _ _ => inl (SystemExit 1)
  | KeyboardInterrupt => inr tt
  | _ => inl e
  end.

(** The world after some more events. *)
Definition add (w : world) (evs : list event) : world :=
  {| cwd := cwd w; trace := trace w ++ evs |}.

(** How often the working directory is changed in a run. *)
Fixpoint chdir_count (t : list event) : nat :=
  match t with
  | [] => 0
  | Chdir _ :: t' => S (chdir_count t')
  | _ :: t' => chdir_count t'
  end.

(** The document roots of the handlers of a run. *)
Fixpoint served_directories (t : list event) : list Path :=
  match t with
  | [] => []
  | ServeForever d :: t' => d :: served_directories t'
  | _ :: t' => served_directories t'
  end.

(** Sample worlds. *)
Definition sample_script : Path :=
  {| anchor := "/"; parts := ["repo"; "scripts"; "servers"; "server.py"] |}.
Definition sample_cwd : Path := {| anchor := "/"; parts := ["home"; "dev"] |}.

Definition world_port_busy (p : platform) : env :=
  {| script_file := sample_script;
     bind_outcome := Some (OSError (Some (EADDRINUSE p)) "Address already in use");
     browser_outcome := inr true;
     serve_outcome := None |}.

Definition world_permission_denied : env :=
  {| script_file := sample_script;
     bind_outcome := Some (OSError (Some 13%Z) "Permission denied");
     browser_outcome := inr true;
     serve_outcome := None |}.

Definition world_interrupted : env :=
  {| script_file := sample_script;
     bind_outcome := None;
     browser_outcome := inr true;
     serve_outcome := Some KeyboardInterrupt |}.

Definition world_no_browser : env :=
  {| script_file := sample_script;
     bind_outcome := None;
     browser_outcome := inl (Other "webbrowser.Error" "could not locate runnable browser");
     serve_outcome := Some KeyboardInterrupt |}.

End MainTerms.

(** ** Further terms: what a run did, read off its events *)

Module RunTerms.
Import Py pathlib Proc server MainTerms.

(** The addresses handed to the browser, in order. *)
Fixpoint browser_urls (t : list event) : list string :=
  match t with
  | [] => []
  | WebbrowserOpen url :: t' => url :: browser_urls t'
  | _ :: t' => browser_urls t'
  end.

(** How often the server was closed by leaving the [with] block. *)
Fixpoint close_count (t : list event) : nat :=
  match t with
  | [] => 0
  | ServerClose :: t' => S (close_count t')
  | _ :: t' => close_count t'
  end.

(** The exception that ended the [try] block, if one did: the one raised
    while binding, else the one raised while serving. *)
Definition outcome (E : env) : option exn :=
  match bind_outcome E with
  | Some e => Some e
  | None => serve_outcome E
  end.

(** The exceptions neither [except] clause of [main] names (and which are
    not a request to exit). *)
Definition unhandled (e : exn) : bool :=
  match e with
  | ValueError _ | TypeError _ | AttributeError _ | Other _ _ => true
  | OSError _ _ | KeyboardInterrupt | SystemExit _ => false
  end.

(** What is on the console when the serve loop is entered. *)
Definition console_when_serving (E : env) : list string :=
  banner E ++ started_lines ++
  [browser_line (browser_outcome E); ""%string; running_line].

(** A resolver that answers with a pair, as [mimetypes.guess_type] does. *)
Definition of_option (o : option string) : value :=
  match o with
  | Some s => VStr s
  | None => VNone
  end.

Definition pair_resolver (t : mimetypes.tables) (path : string)
  : result value :=
  let (ty, encoding) := mimetypes.guess_type t path in
  ret (VTuple [of_option ty; of_option encoding]).

(** The first line of the farewell. *)
Definition farewell : string := String LF "🛑 Server stopped by user".

(** A handler that has just sent the interim answer to [Expect:
    100-continue] and not yet finalized it. *)
Definition continue_response : http_server.handler :=
  HeaderTerms.do_calls
    [HeaderTerms.Status "HTTP/1.0" 100 "Continue"]
    {| http_server.request_version := "HTTP/1.1";
       http_server._headers_buffer := None;
       http_server.wfile := [];
       http_server.close_connection := false |}.

(** More sample worlds. *)
Definition world_serving_error : env :=
  {| script_file := sample_script;
     bind_outcome := None;
     browser_outcome := inr true;
     serve_outcome := Some (OSError (Some 24%Z) "Too many open files") |}.

Definition world_handler_crash : env :=
  {| script_file := sample_script;
     bind_outcome := None;
     browser_outcome := inr true;
     serve_outcome := Some (Other "RuntimeError" "boom") |}.

Definition world_interrupted_early : env :=
  {| script_file := sample_script;
     bind_outcome := Some KeyboardInterrupt;
     browser_outcome := inr true;
     serve_outcome := None |}.

Definition world_started_by_name : env :=
  {| script_file := {| anchor := ""; parts := ["server.py"%string] |};
     bind_outcome := None;
     browser_outcome := inr true;
     serve_outcome := Some KeyboardInterrupt |}.

End RunTerms.

(** ** Further terms: header blocks, plain text, another type table *)

Module ResponseTerms.
Import Py http_server HeaderTerms.

(** Finalizing the headers of [h] writes one header block: the lines
    buffered before, then the three CORS lines, then the blank line. *)
Definition cors_appended (h : handler) : Prop :=
  exists h',
    FluxHTTPRequestHandler.end_headers h = inr h' /\
    wfile h' =
      wfile h ++ [String.concat "" (buffered h ++ cors_lines ++ [CRLF])].

(** Text in which every character is one byte. *)
Definition is_ascii_char (c : ascii) : bool := (nat_of_ascii c <? 128)%nat.

Fixpoint is_ascii (s : string) : bool :=
  match s with
  | "" => true
  | String c s' => is_ascii_char c && is_ascii s'
  end.


End ResponseTerms.

(** * Properties *)

(** ** Strings *)

Module StringFacts.
Import Py.

Lemma length_append (s1 s2 : string) :
  String.length (s1 ++ s2) = String.length s1 + String.length s2.
Proof.
  induction s1 as [|c s1 IH]; cbn; [reflexivity | now rewrite IH].
Qed.

Lemma length_lower (s : string) : String.length (lower s) = String.length s.
Proof.
  induction s as [|c s IH]; cbn; [reflexivity | now rewrite IH].
Qed.

(** [endswith] holds on a string built by appending the suffix. *)
Lemma endswith_append (p suffix : string) : endswith (p ++ suffix) suffix = true.
Proof.
  induction p as [|c p IH]; cbn.
  - destruct suffix; cbn; rewrite ?Ascii.eqb_refl, ?String.eqb_refl; reflexivity.
  - rewrite IH. apply orb_true_r.
Qed.

(** ... and only on such strings. *)
Lemma endswith_inv (s suffix : string) :
  endswith s suffix = true -> exists p, s = (p ++ suffix)%string.
Proof.
  induction s as [|c s IH]; cbn [endswith]; intros H.
  - rewrite orb_false_r in H. apply String.eqb_eq in H. now exists "".
  - apply orb_true_iff in H. destruct H as [H|H].
    + apply String.eqb_eq in H. now exists "".
    + destruct (IH H) as [p ->]. now exists (String c p).
Qed.

(** Two ways of cutting one string into a front and a back of the same
    length give the same back. *)
Lemma append_same_back (p q a b : string) :
  (p ++ a = q ++ b)%string -> String.length a = String.length b -> a = b.
Proof.
  revert q. induction p as [|c p IH]; intros q H L.
  - destruct q as [|d q]; [exact H|].
    cbn in H. subst a. cbn in L. rewrite length_append in L. lia.
  - destruct q as [|d q].
    + cbn in H. subst b. cbn in L. rewrite length_append in L. lia.
    + cbn in H. injection H as _ H. now apply (IH q).
Qed.

(** The suffix test is exact: a string that ends in another spelling of a
    suffix does not end in the suffix. *)
Lemma endswith_exact (path suffix spelling : string) :
  String.length spelling = String.length suffix ->
  spelling <> suffix ->
  endswith path spelling = true ->
  endswith path suffix = false.
Proof.
  intros L N H.
  destruct (endswith path suffix) eqn:E; [|reflexivity].
  apply endswith_inv in H. destruct H as [p Hp].
  apply endswith_inv in E. destruct E as [q Hq].
  exfalso. apply N. apply (append_same_back p q); [congruence | exact L].
Qed.

End StringFacts.

(** ** The header override *)

Module HeaderProofs.
Import Py http_server HeaderTerms.

(** The effect of the buffer and connection updates on each field. *)
Lemma buffer_append_fields (h : handler) (line : string) :
  request_version (buffer_append h line) = request_version h /\
  wfile (buffer_append h line) = wfile h /\
  close_connection (buffer_append h line) = close_connection h /\
  buffered (buffer_append h line) = buffered h ++ [line].
Proof.
  unfold buffer_append, buffered.
  destruct h as [v [b|] w cc]; repeat split.
Qed.

Lemma set_close_connection_fields (h : handler) (c : bool) :
  request_version (set_close_connection h c) = request_version h /\
  wfile (set_close_connection h c) = wfile h /\
  _headers_buffer (set_close_connection h c) = _headers_buffer h.
Proof. repeat split. Qed.

(** [send_header] in two steps: the buffer, then the connection flag. *)
Lemma send_header_steps (keyword value : string) (h : handler) :
  exists c, send_header keyword value h =
            set_close_connection (buffer_step keyword value h) c.
Proof.
  unfold send_header. fold (buffer_step keyword value h).
  destruct (lower keyword =? "connection");
    [destruct (lower value =? "close");
       [|destruct (lower value =? "keep-alive")]|];
    try (eexists; reflexivity);
    exists (close_connection (buffer_step keyword value h));
    now destruct (buffer_step keyword value h).
Qed.

(** A keyword other than [Connection] only reaches the buffer. *)
Lemma send_header_plain (keyword value : string) (h : handler) :
  (lower keyword =? "connection") = false ->
  send_header keyword value h = buffer_step keyword value h.
Proof. intros K. unfold send_header. now rewrite K. Qed.

Lemma version_do_call (h : handler) (c : header_call) :
  request_version (do_call h c) = request_version h.
Proof.
  destruct c as [pv code msg|k v]; unfold do_call.
  - unfold send_response_only.
    destruct (request_version h =? "HTTP/0.9"); [reflexivity|].
    apply buffer_append_fields.
  - destruct (send_header_steps k v h) as [c ->].
    unfold buffer_step.
    destruct (request_version h =? "HTTP/0.9"); [reflexivity|].
    apply buffer_append_fields.
Qed.

Lemma wfile_do_call (h : handler) (c : header_call) :
  wfile (do_call h c) = wfile h.
Proof.
  destruct c as [pv code msg|k v]; unfold do_call.
  - unfold send_response_only.
    destruct (request_version h =? "HTTP/0.9"); [reflexivity|].
    apply buffer_append_fields.
  - destruct (send_header_steps k v h) as [c ->].
    unfold buffer_step.
    destruct (request_version h =? "HTTP/0.9"); [reflexivity|].
    apply buffer_append_fields.
Qed.

(** A header call on a versioned request adds exactly its line to the
    buffer. *)
Lemma buffered_do_call (h : handler) (c : header_call) :
  (request_version h =? "HTTP/0.9") = false ->
  buffered (do_call h c) = buffered h ++ [call_line c].
Proof.
  intros V. destruct c as [pv code msg|k v]; unfold do_call, call_line.
  - unfold send_response_only. rewrite V. apply buffer_append_fields.
  - destruct (send_header_steps k v h) as [c ->].
    unfold buffer_step. rewrite V.
    unfold buffered at 1.
    change (_headers_buffer (set_close_connection ?x c))
      with (_headers_buffer x).
    apply buffer_append_fields.
Qed.

(** A header call on an HTTP/0.9 request leaves the buffer alone. *)
Lemma buffer_do_call_http09 (h : handler) (c : header_call) :
  (request_version h =? "HTTP/0.9") = true ->
  _headers_buffer (do_call h c) = _headers_buffer h.
Proof.
  intros V. destruct c as [pv code msg|k v]; unfold do_call.
  - unfold send_response_only. now rewrite V.
  - destruct (send_header_steps k v h) as [c ->].
    unfold buffer_step. now rewrite V.
Qed.

Lemma version_do_calls (cs : list header_call) (h : handler) :
  request_version (do_calls cs h) = request_version h.
Proof.
  revert h. induction cs as [|c cs IH]; intros h; [reflexivity|].
  unfold do_calls in *. cbn [fold_left]. now rewrite IH, version_do_call.
Qed.

Lemma wfile_do_calls (cs : list header_call) (h : handler) :
  wfile (do_calls cs h) = wfile h.
Proof.
  revert h. induction cs as [|c cs IH]; intros h; [reflexivity|].
  unfold do_calls in *. cbn [fold_left]. now rewrite IH, wfile_do_call.
Qed.

Lemma buffered_do_calls (cs : list header_call) (h : handler) :
  (request_version h =? "HTTP/0.9") = false ->
  buffered (do_calls cs h) = buffered h ++ map call_line cs.
Proof.
  revert h. induction cs as [|c cs IH]; intros h V.
  - cbn [map]. now rewrite app_nil_r.
  - unfold do_calls in *. cbn [fold_left map].
    rewrite IH by now rewrite version_do_call.
    rewrite buffered_do_call by exact V. now rewrite <- app_assoc.
Qed.

Lemma buffer_do_calls_http09 (cs : list header_call) (h : handler) :
  (request_version h =? "HTTP/0.9") = true ->
  _headers_buffer (do_calls cs h) = _headers_buffer h.
Proof.
  revert h. induction cs as [|c cs IH]; intros h V; [reflexivity|].
  unfold do_calls in *. cbn [fold_left].
  rewrite IH by now rewrite version_do_call.
  now apply buffer_do_call_http09.
Qed.

(** What the override does to any handler state: nothing for an HTTP/0.9
    request, and otherwise one write of the buffered lines, the three CORS
    lines and the blank line. *)
Lemma end_headers_closed_form (h : handler) :
  FluxHTTPRequestHandler.end_headers h =
  inr (if request_version h =? "HTTP/0.9" then h else finalized h).
Proof.
  unfold FluxHTTPRequestHandler.end_headers.
  rewrite !send_header_plain by (vm_compute; reflexivity).
  destruct h as [v b w c].
  unfold end_headers, buffer_step, buffer_append, set_buffer.
  cbv beta iota delta [request_version _headers_buffer wfile close_connection].
  destruct (v =? "HTTP/0.9") eqn:V.
  - rewrite ?V. reflexivity.
  - destruct b as [b|]; rewrite ?V;
      unfold finalized, buffered, flush_headers, write, set_buffer,
        cors_lines, ret;
      cbv beta iota delta [request_version _headers_buffer wfile close_connection];
      rewrite <- ?app_assoc; reflexivity.
Qed.

(** The header block of a not-found answer, as it goes out. *)
Example not_found_header_block :
  FluxHTTPRequestHandler.end_headers not_found_response =
  inr {| request_version := "HTTP/1.1";
         _headers_buffer := Some [];
         wfile :=
           [String.concat CRLF
              ["HTTP/1.0 404 File not found";
               "Server: SimpleHTTP/0.6 Python/3.11";
               "Connection: close";
               "Content-Type: text/html;charset=utf-8";
               "Content-Length: 335";
               "Access-Control-Allow-Origin: *";
               "Access-Control-Allow-Methods: GET, POST, OPTIONS";
               "Access-Control-Allow-Headers: *";
               ""; ""]];
         close_connection := true |}.
Proof. vm_compute. reflexivity. Qed.

(** The answer to an HTTP/0.9 request: nothing is written. *)
Example http09_no_header_block :
  FluxHTTPRequestHandler.end_headers http09_request = inr http09_request.
Proof. vm_compute. reflexivity. Qed.

End HeaderProofs.

Module HeaderClaims.
Import Py http_server HeaderTerms ResponseTerms HeaderProofs.

(** C1, as amended: the three headers
    [Access-Control-Allow-Origin: *],
    [Access-Control-Allow-Methods: GET, POST, OPTIONS] and
    [Access-Control-Allow-Headers: *] are sent exactly when the handler's
    [request_version] attribute is not [HTTP/0.9] at the moment the headers
    are finalized.  Then, whatever status line and headers are buffered,
    [FluxHTTPRequestHandler.end_headers] writes one block made of the
    buffered lines, the three CORS lines right after them, and the blank
    line.  While the attribute is [HTTP/0.9], whatever status line and
    headers the handler sets, finalizing writes nothing, so no reading of
    "the headers are present" holds. *)
Theorem cors_iff_request_version (h : handler) :
  (cors_appended h <-> request_version h <> "HTTP/0.9") /\
  (cors_on_response h <-> request_version h <> "HTTP/0.9") /\
  (request_version h = "HTTP/0.9" ->
   forall cs, exists h',
     FluxHTTPRequestHandler.end_headers (do_calls cs h) = inr h' /\
     wfile h' = wfile h).
Proof.
  assert (forall k, (request_version k =? "HTTP/0.9") = false ->
                    cors_appended k) as Sent.
  { intros k V. exists (finalized k). split; [|reflexivity].
    rewrite end_headers_closed_form. now rewrite V. }
  assert (forall k, (request_version k =? "HTTP/0.9") = true ->
                    ~ cors_on_response k) as Silent.
  { intros k V (h' & earlier & H & W).
    rewrite end_headers_closed_form, V in H. injection H as <-.
    apply (f_equal (@List.length string)) in W.
    rewrite length_app in W. cbn in W. lia. }
  assert (cors_appended h -> cors_on_response h) as Weaker.
  { intros (h' & H & W). exists h', (buffered h). now split. }
  destruct (request_version h =? "HTTP/0.9") eqn:V.
  - pose proof V as V'. apply String.eqb_eq in V'.
    split; [|split].
    + split; [|intros N; now destruct N].
      intros C. destruct (Silent h V (Weaker C)).
    + split; [|intros N; now destruct N].
      intros C. destruct (Silent h V C).
    + intros _ cs. exists (do_calls cs h). split.
      * rewrite end_headers_closed_form, version_do_calls. now rewrite V.
      * apply wfile_do_calls.
  - pose proof V as V'. apply String.eqb_neq in V'.
    split; [|split].
    + split; [intros _; exact V' | intros _; now apply Sent].
    + split; [intros _; exact V' | intros _; apply Weaker; now apply Sent].
    + intros N. contradiction.
Qed.

Lemma cors_iff_request_version_witness :
  request_version not_found_response <> "HTTP/0.9" /\
  cors_appended not_found_response.
Proof.
  assert (request_version not_found_response <> "HTTP/0.9") as V.
  { vm_compute. discriminate. }
  split; [exact V|].
  exact (proj2 (proj1 (cors_iff_request_version not_found_response)) V).
Defined.

(** C1, as stated, fails: the answer to an HTTP/0.9 request is sent without
    any header, so without the CORS headers. *)
Lemma cors_missing_on_http09 : ~ cors_on_response http09_request.
Proof.
  intros (h' & earlier & H & W).
  rewrite end_headers_closed_form in H. cbn in H. injection H as <-.
  cbn in W. discriminate W.
Qed.

(** C10: on a handler whose status line and headers were set by the standard
    handler's calls [cs], the override leaves an HTTP/0.9 request as it is,
    and otherwise writes one block holding the lines that were buffered
    before, the lines of [cs] in order and unchanged, the three CORS lines
    and the blank line; the parent's [end_headers] on the same handler
    writes the same block without the three CORS lines.  Nothing else of the
    handler differs. *)
Theorem end_headers_keeps_earlier_headers
    (h0 : handler) (cs : list header_call) :
  let h := do_calls cs h0 in
  let sent (extra : list string) :=
    {| request_version := request_version h0;
       _headers_buffer := Some [];
       wfile := wfile h0 ++
                [String.concat ""
                   (buffered h0 ++ map call_line cs ++ extra ++ [CRLF])];
       close_connection := close_connection h |} in
  FluxHTTPRequestHandler.end_headers h =
    inr (if request_version h0 =? "HTTP/0.9" then h else sent cors_lines)
  /\
  end_headers h =
    (if request_version h0 =? "HTTP/0.9" then inr h
     else match _headers_buffer h with
          | Some _ => inr (sent [])
          | None => inl (AttributeError "_headers_buffer")
          end).
Proof.
  intros h sent. subst sent. split.
  - rewrite end_headers_closed_form. subst h.
    rewrite version_do_calls.
    destruct (request_version h0 =? "HTTP/0.9") eqn:V; [reflexivity|].
    unfold finalized.
    rewrite version_do_calls, wfile_do_calls, buffered_do_calls by exact V.
    now rewrite <- !app_assoc.
  - unfold end_headers. subst h. rewrite version_do_calls.
    destruct (request_version h0 =? "HTTP/0.9") eqn:V; [reflexivity|].
    pose proof (buffered_do_calls cs h0 V) as B.
    pose proof (wfile_do_calls cs h0) as W.
    pose proof (version_do_calls cs h0) as R.
    destruct (do_calls cs h0) as [v [b|] w c]; [|reflexivity].
    unfold buffered in B at 1. cbn in B, W, R. subst b w v.
    unfold flush_headers, write, set_buffer, ret. cbn.
    now rewrite <- !app_assoc.
Qed.

End HeaderClaims.

(** ** The MIME-type override *)

Module GuessTypeProofs.
Import Py HeaderTerms StringFacts.

Lemma dict_get_Forall (P : string -> Prop) (d : list (string * string))
    (k v : string) :
  Forall (fun kv => P (snd kv)) d -> dict_get d k = Some v -> P v.
Proof.
  induction 1 as [|[k' v'] d HP _ IH]; cbn; [discriminate|].
  destruct (k' =? k); [intros [= <-]; exact HP | exact IH].
Qed.

Lemma extensions_map_ok :
  Forall (fun kv => 3 <= String.length (snd kv)) http_server.extensions_map.
Proof. repeat constructor; cbn; lia. Qed.

Lemma default_tables_ok : types_ok mimetypes.default_tables.
Proof. repeat constructor; cbn; lia. Qed.

(** A type guessed by [mimetypes.guess_type] comes from the type table. *)
Lemma mimetypes_guess_length (t : mimetypes.tables) (url ty : string) :
  types_ok t ->
  fst (mimetypes.guess_type t url) = Some ty -> 3 <= String.length ty.
Proof.
  intros OK. unfold mimetypes.guess_type.
  destruct (posixpath.splitext url) as [base0 ext0].
  destruct (mimetypes.expand_suffix t (String.length url) base0 ext0)
    as [base ext].
  destruct (match dict_get (mimetypes.encodings_map t) ext with
            | Some enc => (Some enc, snd (posixpath.splitext base))
            | None => (None, ext)
            end) as [encoding ext'].
  destruct (dict_get (mimetypes.types_map t) (lower ext')) as [ty'|] eqn:D;
    cbn; [|discriminate].
  intros [= <-]. exact (dict_get_Forall (fun s => 3 <= String.length s) _ _ _ OK D).
Qed.

(** The parent's answer is a string of at least three characters. *)
Lemma parent_type_length (t : mimetypes.tables) (path : string) :
  types_ok t -> 3 <= String.length (http_server.guess_type t path).
Proof.
  intros OK. unfold http_server.guess_type.
  destruct (posixpath.splitext path) as [base ext].
  destruct (dict_get http_server.extensions_map ext) as [ty|] eqn:D1.
  { exact (dict_get_Forall (fun s => 3 <= String.length s) _ _ _
              extensions_map_ok D1). }
  destruct (dict_get http_server.extensions_map (lower ext)) as [ty|] eqn:D2.
  { exact (dict_get_Forall (fun s => 3 <= String.length s) _ _ _
              extensions_map_ok D2). }
  destruct (fst (mimetypes.guess_type t path)) as [guess|] eqn:G.
  - destruct (guess =? ""); [cbn; lia|].
    exact (mimetypes_guess_length t path guess OK G).
  - cbn; lia.
Qed.

(** Unpacking a string of three or more characters into two names fails. *)
Lemma unpack2_long (s : string) :
  3 <= String.length s -> unpack2 (VStr s) = inl unpack_error.
Proof.
  destruct s as [|a [|b [|c s]]]; cbn; intros L; try lia; reflexivity.
Qed.

(** With the parent the class statement names, [guess_type] raises on every
    path, before it looks at the suffix. *)
Lemma guess_type_served_raises (t : mimetypes.tables) (path : string) :
  types_ok t ->
  FluxHTTPRequestHandler.guess_type_served t path = inl unpack_error.
Proof.
  intros OK.
  unfold FluxHTTPRequestHandler.guess_type_served,
    FluxHTTPRequestHandler.guess_type,
    FluxHTTPRequestHandler.parent_guess_type, bind, ret.
  now rewrite (unpack2_long _ (parent_type_length t path OK)).
Qed.

(** With a parent that answers with a pair, [guess_type] replaces the type
    for a path that ends in [.js] and keeps the encoding ... *)
Lemma guess_type_pair_js (super : string -> result value)
    (path : string) (mimetype encoding : value) :
  super path = inr (VTuple [mimetype; encoding]) ->
  endswith path ".js" = true ->
  FluxHTTPRequestHandler.guess_type super path =
  inr (VTuple [VStr "application/javascript"; encoding]).
Proof.
  intros S J. unfold FluxHTTPRequestHandler.guess_type, bind.
  rewrite S. cbn. now rewrite J.
Qed.

(** ... and hands the pair back for any other path. *)
Lemma guess_type_pair_other (super : string -> result value)
    (path : string) (mimetype encoding : value) :
  super path = inr (VTuple [mimetype; encoding]) ->
  endswith path ".js" = false ->
  FluxHTTPRequestHandler.guess_type super path = super path.
Proof.
  intros S J. unfold FluxHTTPRequestHandler.guess_type, bind.
  rewrite S. cbn. now rewrite J.
Qed.

End GuessTypeProofs.

Module GuessTypeClaims.
Import Py HeaderTerms StringFacts GuessTypeProofs.

(** C2 (the code departs from it): for a path that ends in [.js], the
    parent [SimpleHTTPRequestHandler.guess_type] answers with a type string,
    and [FluxHTTPRequestHandler.guess_type] raises [ValueError] while
    unpacking that string into two names; it returns neither
    [application/javascript] nor an encoding. *)
Theorem guess_type_js_raises (t : mimetypes.tables) (path : string) :
  types_ok t ->
  endswith path ".js" = true ->
  FluxHTTPRequestHandler.parent_guess_type t path =
    inr (VStr (http_server.guess_type t path)) /\
  FluxHTTPRequestHandler.guess_type_served t path = inl unpack_error.
Proof.
  intros OK _. split; [reflexivity|].
  now apply guess_type_served_raises.
Qed.

Lemma guess_type_js_raises_witness :
  types_ok mimetypes.default_tables /\
  endswith "/srv/flux/app.js" ".js" = true /\
  FluxHTTPRequestHandler.parent_guess_type mimetypes.default_tables
    "/srv/flux/app.js" = inr (VStr "application/javascript") /\
  FluxHTTPRequestHandler.guess_type_served mimetypes.default_tables
    "/srv/flux/app.js" = inl unpack_error.
Proof.
  split; [exact default_tables_ok|]. split; [reflexivity|].
  split; [reflexivity|].
  apply (guess_type_js_raises mimetypes.default_tables "/srv/flux/app.js");
    [exact default_tables_ok | reflexivity].
Defined.

(** C5 (the code departs from it): for a path that does not end in [.js],
    [FluxHTTPRequestHandler.guess_type] raises [ValueError] as well, so it
    does not return what the parent's [guess_type] returns. *)
Theorem guess_type_other_raises (t : mimetypes.tables) (path : string) :
  types_ok t ->
  endswith path ".js" = false ->
  FluxHTTPRequestHandler.guess_type_served t path = inl unpack_error /\
  FluxHTTPRequestHandler.guess_type_served t path <>
    FluxHTTPRequestHandler.parent_guess_type t path.
Proof.
  intros OK _. rewrite (guess_type_served_raises t path OK).
  split; [reflexivity | discriminate].
Qed.

Lemma guess_type_other_raises_witness :
  types_ok mimetypes.default_tables /\
  endswith "/srv/flux/index.html" ".js" = false /\
  FluxHTTPRequestHandler.guess_type_served mimetypes.default_tables
    "/srv/flux/index.html" = inl unpack_error /\
  FluxHTTPRequestHandler.guess_type_served mimetypes.default_tables
    "/srv/flux/index.html" <>
  FluxHTTPRequestHandler.parent_guess_type mimetypes.default_tables
    "/srv/flux/index.html".
Proof.
  split; [exact default_tables_ok|]. split; [reflexivity|].
  apply (guess_type_other_raises mimetypes.default_tables
           "/srv/flux/index.html");
    [exact default_tables_ok | reflexivity].
Defined.

(** C9 (the code departs from its second half): a path that ends in another
    spelling of [.js], such as [.JS] or [.Js], does not pass the suffix test
    of [guess_type]; but the call does not reach the parent's answer either,
    it raises [ValueError]. *)
Theorem guess_type_other_spelling (t : mimetypes.tables)
    (path spelling : string) :
  types_ok t ->
  lower spelling = ".js" ->
  spelling <> ".js" ->
  endswith path spelling = true ->
  endswith path ".js" = false /\
  FluxHTTPRequestHandler.guess_type_served t path = inl unpack_error.
Proof.
  intros OK L N H. split.
  - apply (endswith_exact path ".js" spelling); [|exact N|exact H].
    rewrite <- (length_lower spelling). now rewrite L.
  - now apply guess_type_served_raises.
Qed.

Lemma guess_type_other_spelling_witness :
  types_ok mimetypes.default_tables /\
  lower ".JS" = ".js" /\
  ".JS" <> ".js" /\
  endswith "/srv/flux/APP.JS" ".JS" = true /\
  endswith "/srv/flux/APP.JS" ".js" = false /\
  FluxHTTPRequestHandler.guess_type_served mimetypes.default_tables
    "/srv/flux/APP.JS" = inl unpack_error.
Proof.
  split; [exact default_tables_ok|]. split; [reflexivity|].
  split; [discriminate|]. split; [reflexivity|].
  apply (guess_type_other_spelling mimetypes.default_tables
           "/srv/flux/APP.JS" ".JS");
    [exact default_tables_ok | reflexivity | discriminate | reflexivity].
Defined.

End GuessTypeClaims.

(** ** The start-up routine *)

Module MainProofs.
Import Py pathlib Proc server MainTerms.

Lemma str_int_PORT : str_int PORT = "8000".
Proof. vm_compute. reflexivity. Qed.

Lemma base_url_eq : base_url = "http://localhost:8000".
Proof. vm_compute. reflexivity. Qed.

Lemma rule_eq :
  repeat_str "=" 50 = "==================================================".
Proof. vm_compute. reflexivity. Qed.

(** Runs a straight-line piece of the program on a world, value first, so
    that the world stays a record of its two fields. *)
Ltac run_monad :=
  cbv beta iota zeta delta [mbind print log sys_exit mraise mret cwd trace];
  rewrite <- ?app_assoc;
  rewrite ?str_int_PORT, ?base_url_eq, ?rule_eq;
  cbn [String.append app map];
  reflexivity.

(** The outer [try]: what its two [except] clauses print, and what is left
    of the exception. *)
Lemma try_except_on_error (body : M unit) (w : world) :
  try_except body on_error w =
  match body w with
  | (inl e, w') => (after_handler e, add w' (map Print (error_lines e)))
  | (inr a, w') => (inr a, w')
  end.
Proof.
  unfold try_except. destruct (body w) as [[e|a] w']; [|reflexivity].
  destruct w' as [c t].
  destruct e as [[n|] m| |c'|m|m|m|nm m];
    unfold on_error, error_lines, errno_is, add, after_handler,
      port_in_use_lines, stopped_lines, raw_error_line;
    try destruct ((n =? 48)%Z || (n =? 10048)%Z);
    cbn [map]; rewrite ?app_nil_r; run_monad.
Qed.

(** The body of the [with] block. *)
Lemma serve_spec (E : env) (w : world) :
  serve E w =
  (match serve_outcome E with Some e => inl e | None => inr tt end,
   add w (map Print started_lines ++
          [WebbrowserOpen base_url; Print (browser_line (browser_outcome E));
           Print ""; Print running_line; ServeForever (cwd w)])).
Proof.
  destruct w as [c t]. destruct E as [f bo br so].
  unfold serve, open_browser, try_except, webbrowser_open, serve_forever,
    add, started_lines, browser_line, opening_line, fallback_line,
    running_line.
  cbv beta iota delta [serve_outcome browser_outcome].
  destruct br as [e|b]; destruct so as [e'|]; run_monad.
Qed.

Lemma with_TCPServer_spec (E : env) (w : world) :
  with_TCPServer E HOST PORT (serve E) w =
  match bind_outcome E with
  | Some e => (inl e, add w [TCPServerInit HOST PORT])
  | None =>
      (match serve_outcome E with Some e => inl e | None => inr tt end,
       add w ([TCPServerInit HOST PORT] ++ map Print started_lines ++
              [WebbrowserOpen base_url;
               Print (browser_line (browser_outcome E));
               Print ""; Print running_line; ServeForever (cwd w);
               ServerClose]))
  end.
Proof.
  unfold with_TCPServer; cbv beta iota zeta delta [mbind log].
  destruct (bind_outcome E) as [e|]; [reflexivity|].
  rewrite serve_spec. unfold add. cbv beta iota delta [cwd trace].
  rewrite <- ?app_assoc. reflexivity.
Qed.

(** A run of the program, for every way the outside calls can end. *)
Lemma run_spec (E : env) (cwd0 : Path) :
  run E cwd0 =
  (run_status E,
   {| cwd := resolve cwd0 (script_dir E); trace := run_trace E cwd0 |}).
Proof.
  unfold run.
  assert (main E {| cwd := cwd0; trace := [] |} =
          try_except (with_TCPServer E HOST PORT (serve E)) on_error
            {| cwd := resolve cwd0 (script_dir E);
               trace := Chdir (script_dir E) :: map Print (banner E) |}) as ->.
  { unfold main, os_chdir, banner, script_dir. run_monad. }
  rewrite try_except_on_error, with_TCPServer_spec.
  unfold run_status, run_trace, startup, serving, add.
  cbv beta iota delta [cwd trace].
  destruct (bind_outcome E) as [e|].
  - rewrite <- ?app_assoc. cbn [app].
    destruct e; reflexivity.
  - destruct (serve_outcome E) as [e|].
    + unfold outcome_lines. rewrite <- ?app_assoc. cbn [app].
      destruct e; reflexivity.
    + unfold outcome_lines. cbn [map]. rewrite <- ?app_assoc. cbn [app].
      rewrite ?app_nil_r. reflexivity.
Qed.

Lemma stdout_app (t1 t2 : list event) :
  stdout (t1 ++ t2) = stdout t1 ++ stdout t2.
Proof.
  induction t1 as [|[] t1 IH]; cbn; rewrite ?IH; reflexivity.
Qed.

Lemma stdout_prints (lines : list string) : stdout (map Print lines) = lines.
Proof. induction lines as [|l lines IH]; cbn; [|rewrite IH]; reflexivity. Qed.

Lemma stdout_startup (E : env) : stdout (startup E) = banner E.
Proof.
  unfold startup. cbn [stdout]. rewrite stdout_app, stdout_prints.
  cbn [stdout]. apply app_nil_r.
Qed.

Lemma chdir_count_app (t1 t2 : list event) :
  chdir_count (t1 ++ t2) = chdir_count t1 + chdir_count t2.
Proof.
  induction t1 as [|[] t1 IH]; cbn; rewrite ?IH; reflexivity.
Qed.

Lemma chdir_count_prints (lines : list string) :
  chdir_count (map Print lines) = 0.
Proof. induction lines as [|l lines IH]; cbn; [reflexivity | exact IH]. Qed.

Lemma served_directories_app (t1 t2 : list event) :
  served_directories (t1 ++ t2) =
  served_directories t1 ++ served_directories t2.
Proof.
  induction t1 as [|[] t1 IH]; cbn; rewrite ?IH; reflexivity.
Qed.

Lemma served_directories_prints (lines : list string) :
  served_directories (map Print lines) = [].
Proof. induction lines as [|l lines IH]; cbn; [reflexivity | exact IH]. Qed.

(** The parent of a named file, seen from the working directory, is the
    parent of the file's full path. *)
Lemma resolve_parent (cwd0 f : Path) :
  parts f <> [] -> resolve cwd0 (parent f) = parent (resolve cwd0 f).
Proof.
  intros N. unfold resolve, is_absolute, parent. cbn [anchor parts].
  destruct (anchor f =? ""); cbn [negb anchor parts]; [|reflexivity].
  now rewrite removelast_app.
Qed.

End MainProofs.

Module MainClaims.
Import Py pathlib Proc server MainTerms MainProofs.

(** C3 (the code departs from it on Linux): when the bind fails with the
    platform's address-already-in-use error, the process exits with code 1
    on every platform; it prints the diagnostic that names port 8000 and the
    ways out on macOS (errno 48) and Windows (errno 10048), but on Linux
    (errno 98) it prints the raw error line of the generic branch. *)
Theorem port_in_use_by_platform
    (E : env) (cwd0 : Path) (p : platform) (msg : string) :
  bind_outcome E = Some (OSError (Some (EADDRINUSE p)) msg) ->
  fst (run E cwd0) = Exited 1 /\
  stdout (trace (snd (run E cwd0))) =
    banner E ++
    match p with
    | Linux => [raw_error_line (OSError (Some 98%Z) msg)]
    | Darwin | Windows => port_in_use_lines
    end.
Proof.
  intros B. rewrite run_spec. cbn [fst snd trace].
  unfold run_status, run_trace. rewrite B.
  split; [reflexivity|].
  rewrite stdout_app, stdout_startup, stdout_prints.
  destruct p; reflexivity.
Qed.

Lemma port_in_use_by_platform_witness :
  bind_outcome (world_port_busy Linux) =
    Some (OSError (Some (EADDRINUSE Linux)) "Address already in use") /\
  fst (run (world_port_busy Linux) sample_cwd) = Exited 1 /\
  stdout (trace (snd (run (world_port_busy Linux) sample_cwd))) =
    banner (world_port_busy Linux) ++
    ["❌ Server error: [Errno 98] Address already in use"%string].
Proof.
  split; [reflexivity|].
  apply (port_in_use_by_platform (world_port_busy Linux) sample_cwd Linux
           "Address already in use").
  reflexivity.
Defined.

(** C6: when the bind fails with an [OSError], the process binds nothing
    else, never serves, and exits with code 1 whichever diagnostic it
    prints; when the errno is neither of the two the script takes for
    address-already-in-use (48, 10048), the diagnostic is the raw error
    line. *)
Theorem bind_error_exits_1
    (E : env) (cwd0 : Path) (errno : option Z) (msg : string) :
  bind_outcome E = Some (OSError errno msg) ->
  fst (run E cwd0) = Exited 1 /\
  trace (snd (run E cwd0)) =
    startup E ++
    map Print
      (if errno_is (OSError errno msg) 48 || errno_is (OSError errno msg) 10048
       then port_in_use_lines
       else [raw_error_line (OSError errno msg)]).
Proof.
  intros B. rewrite run_spec. cbn [fst snd trace].
  unfold run_status, run_trace. rewrite B.
  split; reflexivity.
Qed.

Lemma bind_error_exits_1_witness :
  bind_outcome world_permission_denied =
    Some (OSError (Some 13%Z) "Permission denied") /\
  fst (run world_permission_denied sample_cwd) = Exited 1 /\
  trace (snd (run world_permission_denied sample_cwd)) =
    startup world_permission_denied ++
    [Print "❌ Server error: [Errno 13] Permission denied"].
Proof.
  split; [reflexivity|].
  apply (bind_error_exits_1 world_permission_denied sample_cwd
           (Some 13%Z) "Permission denied").
  reflexivity.
Defined.

(** C4: when the socket was bound and [serve_forever] is ended by a
    [KeyboardInterrupt], the server is closed, the two friendly lines are
    the last thing printed, and the process exits with code 0, not with a
    traceback; this holds whatever the browser launch did. *)
Theorem interrupt_exits_cleanly (E : env) (cwd0 : Path) :
  bind_outcome E = None ->
  serve_outcome E = Some KeyboardInterrupt ->
  fst (run E cwd0) = Exited 0 /\
  exists before,
    trace (snd (run E cwd0)) =
      before ++
      [ServeForever (resolve cwd0 (script_dir E)); ServerClose] ++
      map Print stopped_lines.
Proof.
  intros B S. rewrite run_spec. cbn [fst snd trace].
  unfold run_status, run_trace, serving. rewrite B, S.
  split; [reflexivity|].
  exists (startup E ++ map Print started_lines ++
          [WebbrowserOpen base_url; Print (browser_line (browser_outcome E));
           Print ""; Print running_line]).
  cbn [outcome_lines error_lines].
  rewrite <- ?app_assoc. cbn [app]. reflexivity.
Qed.

Lemma interrupt_exits_cleanly_witness :
  bind_outcome world_interrupted = None /\
  serve_outcome world_interrupted = Some KeyboardInterrupt /\
  fst (run world_interrupted sample_cwd) = Exited 0 /\
  exists before,
    trace (snd (run world_interrupted sample_cwd)) =
      before ++
      [ServeForever (resolve sample_cwd (script_dir world_interrupted));
       ServerClose] ++
      map Print stopped_lines.
Proof.
  split; [reflexivity|]. split; [reflexivity|].
  apply (interrupt_exits_cleanly world_interrupted sample_cwd); reflexivity.
Defined.

(** C8: when the socket was bound and [webbrowser.open] raises any
    exception [e], the run differs from the run in which the browser opened
    in one event only, the fallback line printed in place of the opening
    line: the events before and after are the same, the serve loop is
    entered, and the process ends the same way. *)
Theorem browser_failure_is_swallowed
    (E : env) (cwd0 : Path) (e : exn) (opened : bool) :
  bind_outcome E = None ->
  browser_outcome E = inl e ->
  fst (run E cwd0) = fst (run (with_browser E (inr opened)) cwd0) /\
  exists before after,
    trace (snd (run E cwd0)) = before ++ [Print fallback_line] ++ after /\
    trace (snd (run (with_browser E (inr opened)) cwd0)) =
      before ++ [Print opening_line] ++ after /\
    In (ServeForever (resolve cwd0 (script_dir E))) after.
Proof.
  intros B W. rewrite !run_spec. cbn [fst snd trace].
  unfold run_status, run_trace, serving, startup, script_dir, banner.
  cbn [with_browser bind_outcome browser_outcome serve_outcome script_file].
  rewrite B, W. split; [reflexivity|].
  exists (startup E ++ map Print started_lines ++ [WebbrowserOpen base_url]),
         (serving E cwd0).
  unfold startup, serving, script_dir, banner, browser_line.
  split; [|split].
  - rewrite <- ?app_assoc. cbn [app]. reflexivity.
  - rewrite <- ?app_assoc. cbn [app]. reflexivity.
  - cbn [app In]. auto.
Qed.

Lemma browser_failure_is_swallowed_witness :
  bind_outcome world_no_browser = None /\
  browser_outcome world_no_browser =
    inl (Other "webbrowser.Error" "could not locate runnable browser") /\
  fst (run world_no_browser sample_cwd) =
  fst (run (with_browser world_no_browser (inr true)) sample_cwd).
Proof.
  split; [reflexivity|]. split; [reflexivity|].
  apply (browser_failure_is_swallowed world_no_browser sample_cwd
           (Other "webbrowser.Error" "could not locate runnable browser")
           true); reflexivity.
Defined.

(** C7: the first thing a run does is one [os.chdir] to the parent of the
    script file; no other change of directory follows, so the socket is
    bound and every handler is created with the working directory at the
    directory that holds the script, here the parent of the script's full
    path.  When the script path is absolute, that directory is the same
    from whichever working directory the program was started. *)
Theorem chdir_once_to_script_dir (E : env) (cwd0 : Path) :
  parts (script_file E) <> [] ->
  let w := snd (run E cwd0) in
  hd_error (trace w) = Some (Chdir (parent (script_file E))) /\
  chdir_count (trace w) = 1 /\
  Forall (fun d => d = parent (resolve cwd0 (script_file E)))
         (served_directories (trace w)) /\
  cwd w = parent (resolve cwd0 (script_file E)) /\
  (is_absolute (script_file E) = true ->
   forall cwd1, cwd (snd (run E cwd1)) = parent (script_file E)).
Proof.
  intros N w. subst w. rewrite run_spec. cbn [snd trace cwd].
  unfold run_trace, startup, serving, script_dir.
  rewrite (resolve_parent cwd0 _ N).
  split; [reflexivity|]. split; [|split; [|split; [reflexivity|]]].
  - cbn [app chdir_count].
    rewrite !chdir_count_app, chdir_count_prints. cbn [chdir_count].
    destruct (bind_outcome E) as [e|].
    + now rewrite chdir_count_prints.
    + rewrite ?chdir_count_app, ?chdir_count_prints.
      cbn [chdir_count app]. rewrite ?chdir_count_prints. reflexivity.
  - cbn [app served_directories].
    rewrite !served_directories_app, served_directories_prints.
    cbn [served_directories app].
    destruct (bind_outcome E) as [e|].
    + rewrite served_directories_prints. constructor.
    + rewrite ?served_directories_app, ?served_directories_prints.
      cbn [served_directories app]. rewrite ?served_directories_prints.
      repeat constructor.
  - intros A cwd1. rewrite run_spec. cbn [snd cwd].
    unfold script_dir, resolve, is_absolute, parent in *.
    cbn [anchor parts]. now rewrite A.
Qed.

Lemma chdir_once_to_script_dir_witness :
  parts (script_file world_interrupted) <> [] /\
  cwd (snd (run world_interrupted sample_cwd)) =
    {| anchor := "/"; parts := ["repo"; "scripts"; "servers"] |}.
Proof.
  split; [discriminate|].
  refine (proj1 (proj2 (proj2 (proj2
    (chdir_once_to_script_dir world_interrupted sample_cwd _))))).
  discriminate.
Defined.

End MainClaims.

(** ** Further properties of [main] *)

Module RunFacts.
Import Py pathlib Proc server MainTerms RunTerms MainProofs.

Lemma browser_urls_app (t1 t2 : list event) :
  browser_urls (t1 ++ t2) = browser_urls t1 ++ browser_urls t2.
Proof.
  induction t1 as [|[] t1 IH]; cbn; rewrite ?IH; reflexivity.
Qed.

Lemma browser_urls_prints (lines : list string) :
  browser_urls (map Print lines) = [].
Proof. induction lines as [|l lines IH]; cbn; [reflexivity | exact IH]. Qed.

Lemma close_count_app (t1 t2 : list event) :
  close_count (t1 ++ t2) = close_count t1 + close_count t2.
Proof.
  induction t1 as [|[] t1 IH]; cbn; rewrite ?IH; reflexivity.
Qed.

Lemma close_count_prints (lines : list string) :
  close_count (map Print lines) = 0.
Proof. induction lines as [|l lines IH]; cbn; [reflexivity | exact IH]. Qed.

(** The console of a run, for every way the outside calls can end. *)
Lemma stdout_run (E : env) (cwd0 : Path) :
  stdout (trace (snd (run E cwd0))) =
  match bind_outcome E with
  | Some e => banner E ++ error_lines e
  | None => console_when_serving E ++ outcome_lines (serve_outcome E)
  end.
Proof.
  rewrite run_spec. cbn [snd trace]. unfold run_trace.
  rewrite stdout_app, stdout_startup.
  destruct (bind_outcome E) as [e|].
  - now rewrite stdout_prints.
  - unfold serving, console_when_serving.
    rewrite ?stdout_app, ?stdout_prints. cbn [stdout app].
    rewrite ?stdout_prints. rewrite <- ?app_assoc. reflexivity.
Qed.

(** X1: an [OSError] that comes out of [serve_forever] is handled like one
    from the bind: the server is closed, the diagnostic chosen by the errno
    test is printed after everything printed so far, and the process exits
    with code 1. *)
Theorem serving_error_exits_1
    (E : env) (cwd0 : Path) (errno : option Z) (msg : string) :
  bind_outcome E = None ->
  serve_outcome E = Some (OSError errno msg) ->
  fst (run E cwd0) = Exited 1 /\
  close_count (trace (snd (run E cwd0))) = 1 /\
  stdout (trace (snd (run E cwd0))) =
    console_when_serving E ++
    (if errno_is (OSError errno msg) 48 || errno_is (OSError errno msg) 10048
     then port_in_use_lines
     else [raw_error_line (OSError errno msg)]).
Proof.
  intros B S. split; [|split].
  - rewrite run_spec. cbn [fst]. unfold run_status. now rewrite B, S.
  - rewrite run_spec. cbn [snd trace]. unfold run_trace, startup, serving.
    rewrite B. cbn [close_count app].
    rewrite ?close_count_app, ?close_count_prints.
    cbn [close_count app]. rewrite ?close_count_prints. reflexivity.
  - rewrite stdout_run, B, S. reflexivity.
Qed.

Lemma serving_error_exits_1_witness :
  bind_outcome world_serving_error = None /\
  serve_outcome world_serving_error =
    Some (OSError (Some 24%Z) "Too many open files") /\
  fst (run world_serving_error sample_cwd) = Exited 1.
Proof.
  split; [reflexivity|]. split; [reflexivity|].
  apply (serving_error_exits_1 world_serving_error sample_cwd
           (Some 24%Z) "Too many open files"); reflexivity.
Defined.

(** X2: an exception that is neither an [OSError] nor a
    [KeyboardInterrupt] (nor a [SystemExit]) is not caught by [main]: the
    process ends with that exception uncaught, and neither the diagnostic
    nor the farewell is printed. *)
Theorem other_exception_is_not_caught (E : env) (cwd0 : Path) (e : exn) :
  outcome E = Some e ->
  unhandled e = true ->
  fst (run E cwd0) = Traceback e /\
  stdout (trace (snd (run E cwd0))) =
    match bind_outcome E with
    | Some _ => banner E
    | None => console_when_serving E
    end.
Proof.
  unfold outcome. intros O U. split.
  - rewrite run_spec. cbn [fst]. unfold run_status.
    destruct (bind_outcome E) as [e'|].
    + injection O as ->. destruct e; try discriminate U; reflexivity.
    + rewrite O. destruct e; try discriminate U; reflexivity.
  - rewrite stdout_run.
    destruct (bind_outcome E) as [e'|].
    + injection O as ->.
      destruct e; try discriminate U; cbn [error_lines]; apply app_nil_r.
    + rewrite O.
      destruct e; try discriminate U; cbn [outcome_lines error_lines];
        apply app_nil_r.
Qed.

Lemma other_exception_is_not_caught_witness :
  outcome world_handler_crash = Some (Other "RuntimeError" "boom") /\
  unhandled (Other "RuntimeError" "boom") = true /\
  fst (run world_handler_crash sample_cwd) =
    Traceback (Other "RuntimeError" "boom").
Proof.
  split; [reflexivity|]. split; [reflexivity|].
  apply (other_exception_is_not_caught world_handler_crash sample_cwd
           (Other "RuntimeError" "boom")); reflexivity.
Defined.

(** X3: a [KeyboardInterrupt] that arrives while the socket is being bound
    is caught as well: nothing is served, the farewell follows the banner,
    and the process exits with code 0. *)
Theorem interrupt_while_binding (E : env) (cwd0 : Path) :
  bind_outcome E = Some KeyboardInterrupt ->
  fst (run E cwd0) = Exited 0 /\
  trace (snd (run E cwd0)) = startup E ++ map Print stopped_lines.
Proof.
  intros B. rewrite run_spec. cbn [fst snd trace].
  unfold run_status, run_trace. rewrite B. split; reflexivity.
Qed.

Lemma interrupt_while_binding_witness :
  bind_outcome world_interrupted_early = Some KeyboardInterrupt /\
  fst (run world_interrupted_early sample_cwd) = Exited 0 /\
  trace (snd (run world_interrupted_early sample_cwd)) =
    startup world_interrupted_early ++ map Print stopped_lines.
Proof.
  split; [reflexivity|].
  apply (interrupt_while_binding world_interrupted_early sample_cwd).
  reflexivity.
Defined.

(** X5: the browser is launched exactly when the socket was bound, once,
    and at the address http://localhost:8000. *)
Theorem browser_launched_iff_bound (E : env) (cwd0 : Path) :
  browser_urls (trace (snd (run E cwd0))) =
  match bind_outcome E with
  | None => ["http://localhost:8000"%string]
  | Some _ => []
  end.
Proof.
  rewrite run_spec. cbn [snd trace]. unfold run_trace, startup.
  cbn [app browser_urls].
  rewrite !browser_urls_app, browser_urls_prints.
  cbn [browser_urls app].
  destruct (bind_outcome E) as [e|].
  - now rewrite browser_urls_prints.
  - unfold serving.
    rewrite ?browser_urls_app, ?browser_urls_prints.
    cbn [browser_urls app].
    rewrite ?browser_urls_app, ?browser_urls_prints.
    cbn [browser_urls app]. rewrite ?browser_urls_prints.
    now rewrite base_url_eq.
Qed.

(** X6: once the socket is bound, however [serve_forever] ends (return,
    interrupt, error, any exception), the server is closed exactly once,
    right after serving and before anything an [except] clause prints. *)
Theorem server_closed_after_serving (E : env) (cwd0 : Path) :
  bind_outcome E = None ->
  close_count (trace (snd (run E cwd0))) = 1 /\
  exists before,
    trace (snd (run E cwd0)) =
      before ++
      [ServeForever (resolve cwd0 (script_dir E)); ServerClose] ++
      map Print (outcome_lines (serve_outcome E)).
Proof.
  intros B. rewrite run_spec. cbn [snd trace].
  unfold run_trace, startup, serving. rewrite B. split.
  - cbn [close_count app].
    rewrite ?close_count_app, ?close_count_prints.
    cbn [close_count app]. rewrite ?close_count_prints. reflexivity.
  - exists (startup E ++ map Print started_lines ++
            [WebbrowserOpen base_url;
             Print (browser_line (browser_outcome E));
             Print ""; Print running_line]).
    unfold startup. rewrite <- ?app_assoc. cbn [app]. reflexivity.
Qed.

Lemma server_closed_after_serving_witness :
  bind_outcome world_handler_crash = None /\
  close_count (trace (snd (run world_handler_crash sample_cwd))) = 1.
Proof.
  split; [reflexivity|].
  apply (server_closed_after_serving world_handler_crash sample_cwd).
  reflexivity.
Defined.



End RunFacts.

Module RunFacts2.
Import Py pathlib Proc server MainTerms RunTerms MainProofs RunFacts.

(** How [main] ends, on any world: normally when the [try] block ended
    normally, else with what the [except] clauses leave of the exception. *)
Lemma main_result (E : env) (w : world) :
  fst (main E w) =
  match outcome E with
  | None => inr tt
  | Some e => after_handler e
  end.
Proof.
  destruct w as [c t].
  assert (main E {| cwd := c; trace := t |} =
          try_except (with_TCPServer E HOST PORT (serve E)) on_error
            {| cwd := resolve c (script_dir E);
               trace := t ++ Chdir (script_dir E) :: map Print (banner E) |})
    as ->.
  { unfold main, os_chdir, banner, script_dir. run_monad. }
  rewrite try_except_on_error, with_TCPServer_spec. unfold outcome.
  destruct (bind_outcome E) as [e|]; [reflexivity|].
  destruct (serve_outcome E) as [e|]; reflexivity.
Qed.

(** X8: [main] returns normally exactly when the [try] block ended normally
    or by a [KeyboardInterrupt]; it leaves by [SystemExit(1)] whenever the
    block ended by an [OSError]; and any other exception leaves [main] as it
    was raised. *)
Theorem main_ends_by_outcome (E : env) (w : world) :
  (fst (main E w) = inr tt <->
     outcome E = None \/ outcome E = Some KeyboardInterrupt) /\
  (forall errno msg,
     outcome E = Some (OSError errno msg) ->
     fst (main E w) = inl (SystemExit 1)) /\
  (forall e,
     outcome E = Some e ->
     (forall errno msg, e <> OSError errno msg) ->
     e <> KeyboardInterrupt ->
     fst (main E w) = inl e).
Proof.
  rewrite main_result. split; [|split].
  - destruct (outcome E) as [[errno msg| |code|m|m|m|nm m]|];
      cbn [after_handler]; split; intros H;
      try discriminate H; auto;
      destruct H as [H|H]; discriminate H.
  - intros errno msg ->. reflexivity.
  - intros e -> NO NK.
    destruct e as [errno msg| |code|m|m|m|nm m]; cbn [after_handler];
      try reflexivity.
    + destruct (NO errno msg eq_refl).
    + destruct (NK eq_refl).
Qed.

Ltac not_among H :=
  cbn [In String.append] in H;
  repeat (destruct H as [H|H]; [discriminate H|]);
  try contradiction.

Lemma farewell_not_in_banner (E : env) : ~ In farewell (banner E).
Proof. unfold farewell, banner. intros H. not_among H. Qed.

Lemma farewell_not_when_serving (E : env) :
  ~ In farewell (console_when_serving E).
Proof.
  unfold console_when_serving. intros H.
  apply in_app_or in H. destruct H as [H|H].
  { exact (farewell_not_in_banner E H). }
  apply in_app_or in H. destruct H as [H|H].
  - unfold farewell, started_lines in H. not_among H.
  - unfold farewell, browser_line, opening_line, fallback_line,
      running_line in H.
    destruct (browser_outcome E); not_among H.
Qed.

Lemma farewell_in_error_lines (e : exn) :
  In farewell (error_lines e) <-> e = KeyboardInterrupt.
Proof.
  split.
  - destruct e as [[n|] m| |c|m|m|m|nm m]; intros H;
      try reflexivity; exfalso;
      unfold error_lines, errno_is, farewell, port_in_use_lines,
        raw_error_line in H;
      try destruct ((n =? 48)%Z || (n =? 10048)%Z);
      cbn [orb] in H; not_among H.
  - intros ->. left. reflexivity.
Qed.

(** X9: the farewell is on the console exactly when the [try] block was
    ended by a [KeyboardInterrupt]; an error or a normal return never
    prints it. *)
Theorem farewell_iff_interrupted (E : env) (cwd0 : Path) :
  In farewell (stdout (trace (snd (run E cwd0)))) <->
  outcome E = Some KeyboardInterrupt.
Proof.
  rewrite stdout_run. unfold outcome.
  destruct (bind_outcome E) as [e|].
  - split.
    + intros H. apply in_app_or in H. destruct H as [H|H].
      * destruct (farewell_not_in_banner E H).
      * apply farewell_in_error_lines in H. now subst e.
    + intros [= ->]. apply in_or_app. right.
      now apply farewell_in_error_lines.
  - split.
    + intros H. apply in_app_or in H. destruct H as [H|H].
      * destruct (farewell_not_when_serving E H).
      * destruct (serve_outcome E) as [e|]; [|destruct H].
        apply farewell_in_error_lines in H. now subst e.
    + intros ->. apply in_or_app. right.
      now apply farewell_in_error_lines.
Qed.

(** X10: when the script path is a bare file name, [Path(__file__).parent]
    is the empty relative path: the [os.chdir] leaves the working directory
    where the program was started, and the banner names the directory as a
    single dot. *)
Theorem started_by_bare_name (E : env) (cwd0 : Path) (name : string) :
  script_file E = {| anchor := ""; parts := [name] |} ->
  cwd (snd (run E cwd0)) = cwd0 /\
  hd_error (trace (snd (run E cwd0))) =
    Some (Chdir {| anchor := ""; parts := [] |}) /\
  In "Serving files from: ."%string (stdout (trace (snd (run E cwd0)))).
Proof.
  intros F. split; [|split].
  - rewrite run_spec. cbn [snd cwd]. unfold script_dir. rewrite F.
    unfold resolve, is_absolute, parent. cbn.
    destruct cwd0 as [a ps]. cbn. now rewrite app_nil_r.
  - rewrite run_spec. cbn [snd trace].
    unfold run_trace, startup, script_dir. now rewrite F.
  - rewrite stdout_run.
    assert (In "Serving files from: ."%string (banner E)) as B.
    { unfold banner, script_dir. rewrite F. cbn. auto. }
    destruct (bind_outcome E).
    + apply in_or_app. left. exact B.
    + unfold console_when_serving.
      apply in_or_app. left. apply in_or_app. left. exact B.
Qed.

Lemma started_by_bare_name_witness :
  script_file world_started_by_name =
    {| anchor := ""; parts := ["server.py"%string] |} /\
  cwd (snd (run world_started_by_name sample_cwd)) = sample_cwd.
Proof.
  split; [reflexivity|].
  exact (proj1 (started_by_bare_name world_started_by_name sample_cwd
                  "server.py" eq_refl)).
Defined.

End RunFacts2.

(** ** Further properties of the two overrides *)

Module HandlerFacts.
Import Py http_server HeaderTerms ResponseTerms HeaderProofs RunTerms.


(** X12: finalizing empties the buffer, so header blocks do not leak into
    one another: when headers are set and finalized a second time on the
    same handler (as after an interim 100 Continue), the second block holds
    only the lines set since the first, followed by its own copy of the
    three CORS lines and the blank line. *)
Theorem each_block_gets_cors (h : handler) (cs : list header_call) :
  request_version h <> "HTTP/0.9" ->
  exists h1,
    FluxHTTPRequestHandler.end_headers h = inr h1 /\
    _headers_buffer h1 = Some [] /\
    FluxHTTPRequestHandler.end_headers (do_calls cs h1) =
    inr {| request_version := request_version h;
           _headers_buffer := Some [];
           wfile :=
             wfile h ++
             [String.concat "" (buffered h ++ cors_lines ++ [CRLF]);
              String.concat "" (map call_line cs ++ cors_lines ++ [CRLF])];
           close_connection := close_connection (do_calls cs h1) |}.
Proof.
  intros V. apply String.eqb_neq in V.
  exists (finalized h). split; [|split].
  - rewrite end_headers_closed_form. now rewrite V.
  - reflexivity.
  - rewrite end_headers_closed_form, version_do_calls.
    change (request_version (finalized h)) with (request_version h).
    rewrite V. unfold finalized at 1.
    rewrite version_do_calls, wfile_do_calls, buffered_do_calls by exact V.
    cbn [finalized request_version wfile buffered _headers_buffer app].
    now rewrite <- app_assoc.
Qed.

Lemma each_block_gets_cors_witness :
  request_version continue_response <> "HTTP/0.9" /\
  exists h1,
    FluxHTTPRequestHandler.end_headers continue_response = inr h1 /\
    _headers_buffer h1 = Some [] /\
    FluxHTTPRequestHandler.end_headers
      (do_calls [Status "HTTP/1.0" 200 "OK"] h1) =
    inr {| request_version := request_version continue_response;
           _headers_buffer := Some [];
           wfile :=
             wfile continue_response ++
             [String.concat ""
                (buffered continue_response ++ cors_lines ++ [CRLF]);
              String.concat ""
                (map call_line [Status "HTTP/1.0" 200 "OK"] ++
                 cors_lines ++ [CRLF])];
           close_connection :=
             close_connection (do_calls [Status "HTTP/1.0" 200 "OK"] h1) |}.
Proof.
  split.
  - vm_compute. discriminate.
  - apply (each_block_gets_cors continue_response
             [Status "HTTP/1.0" 200 "OK"]).
    vm_compute. discriminate.
Defined.



(** X14: when the resolver behind [super().guess_type] answers with a
    pair (type, encoding), [guess_type] keeps the encoding, replaces the
    type by [application/javascript] for a path ending in [.js], and keeps
    the type for every other path. *)
Theorem guess_type_on_pair
    (super : string -> result value) (path : string)
    (mimetype encoding : value) :
  super path = inr (VTuple [mimetype; encoding]) ->
  FluxHTTPRequestHandler.guess_type super path =
  inr (VTuple [if endswith path ".js"
               then VStr "application/javascript" else mimetype;
               encoding]).
Proof.
  intros S. unfold FluxHTTPRequestHandler.guess_type, bind.
  rewrite S. cbn [unpack2 ret]. now destruct (endswith path ".js").
Qed.

Lemma guess_type_on_pair_witness :
  pair_resolver mimetypes.default_tables "/srv/flux/style.css" =
    inr (VTuple [VStr "text/css"; VNone]) /\
  FluxHTTPRequestHandler.guess_type
    (pair_resolver mimetypes.default_tables) "/srv/flux/style.css" =
  inr (VTuple [if endswith "/srv/flux/style.css" ".js"
               then VStr "application/javascript" else VStr "text/css";
               VNone]).
Proof.
  split; [reflexivity|].
  apply (guess_type_on_pair
           (pair_resolver mimetypes.default_tables) "/srv/flux/style.css").
  reflexivity.
Defined.

End HandlerFacts.

Module HandlerFacts2.
Import Py http_server HeaderTerms ResponseTerms RunTerms.

(** X15: when the resolver behind [super().guess_type] answers with a
    string of ASCII text (as every MIME type is), [guess_type] returns only
    if that string has exactly two characters (which it then takes for the
    type and the encoding); for a string of any other length the unpacking
    raises [ValueError]. *)
Theorem guess_type_on_string
    (super : string -> result value) (path s : string) :
  super path = inr (VStr s) ->
  is_ascii s = true ->
  ((exists v, FluxHTTPRequestHandler.guess_type super path = inr v) <->
   String.length s = 2) /\
  (String.length s <> 2 ->
   exists msg,
     FluxHTTPRequestHandler.guess_type super path = inl (ValueError msg)).
Proof.
  intros S _. unfold FluxHTTPRequestHandler.guess_type, bind.
  rewrite S.
  destruct s as [|a [|b [|c s]]]; cbn [unpack2 raise ret String.length].
  - split; [split; [intros [v H]; discriminate H | discriminate]|].
    intros _. eexists. reflexivity.
  - split; [split; [intros [v H]; discriminate H | discriminate]|].
    intros _. eexists. reflexivity.
  - split; [|intros N; now destruct N].
    split; [reflexivity|]. intros _.
    destruct (endswith path ".js"); eexists; reflexivity.
  - split; [split; [intros [v H]; discriminate H | discriminate]|].
    intros _. eexists. reflexivity.
Qed.

Lemma guess_type_on_string_witness :
  FluxHTTPRequestHandler.parent_guess_type mimetypes.default_tables
    "/srv/flux/index.html" = inr (VStr "text/html") /\
  is_ascii "text/html" = true /\
  exists msg,
    FluxHTTPRequestHandler.guess_type
      (FluxHTTPRequestHandler.parent_guess_type mimetypes.default_tables)
      "/srv/flux/index.html" = inl (ValueError msg).
Proof.
  split; [reflexivity|]. split; [reflexivity|].
  refine (proj2 (guess_type_on_string
           (FluxHTTPRequestHandler.parent_guess_type mimetypes.default_tables)
           "/srv/flux/index.html" "text/html" eq_refl eq_refl) _).
  cbn. discriminate.
Defined.

End HandlerFacts2.
